(** * Vite integration of the starlite full-stack example

    Shallow embedding of [src/app/domain/web/vite.py]: the manifest
    loader [ViteAssetLoader], the template engine adapter
    [ViteTemplateEngine.hmr_client] and the deferred template configuration
    [ViteTemplateConfig].  The module-level [vite_config] global read by the
    loader is passed explicitly as a [ViteConfig] record. *)

From Stdlib Require Import String Ascii List Bool ZArith NArith Lia Relations.
Import ListNotations.
Open Scope string_scope.
Set Warnings "-register-all".


(** ** Python strings *)

Module Py.

Definition chr (n : nat) : string := String (ascii_of_nat n) EmptyString.

(** The double quote and the newline character. *)
Definition dq : string := chr 34.
Definition nl : string := chr 10.

(** [sep.join(l)] *)
Fixpoint join (sep : string) (l : list string) : string :=
  match l with
  | [] => ""
  | [x] => x
  | x :: r => x ++ sep ++ join sep r
  end.

Fixpoint split_aux (c : ascii) (s cur : string) : list string :=
  match s with
  | EmptyString => [cur]
  | String a r =>
      if Ascii.eqb a c then cur :: split_aux c r ""
      else split_aux c r (cur ++ String a EmptyString)
  end.

(** [s.split(c)] for a one-character separator. *)
Definition split (c : ascii) (s : string) : list string := split_aux c s "".

Fixpoint find_index (p : ascii -> bool) (s : string) : option nat :=
  match s with
  | EmptyString => None
  | String a r => if p a then Some 0 else option_map S (find_index p r)
  end.

Fixpoint all_chars (p : ascii -> bool) (s : string) : bool :=
  match s with
  | EmptyString => true
  | String a r => p a && all_chars p r
  end.

Definition in_range (lo hi : nat) (a : ascii) : bool :=
  Nat.leb lo (nat_of_ascii a) && Nat.leb (nat_of_ascii a) hi.

Definition is_alpha (a : ascii) : bool := in_range 65 90 a || in_range 97 122 a.
Definition is_digit (a : ascii) : bool := in_range 48 57 a.

Definition lower_char (a : ascii) : ascii :=
  if in_range 65 90 a then ascii_of_nat (nat_of_ascii a + 32) else a.

(** [s.lower()] on ASCII text. *)
Fixpoint lower (s : string) : string :=
  match s with
  | EmptyString => EmptyString
  | String a r => String (lower_char a) (lower r)
  end.

Definition mem (s : string) (l : list string) : bool :=
  existsb (String.eqb s) l.

(** [str(n)] for a Python [int]. *)
Fixpoint digits (fuel : nat) (n : N) (acc : string) : string :=
  match fuel with
  | O => acc
  | S f =>
      let acc' := String (ascii_of_N (48 + N.modulo n 10)) acc in
      if N.eqb (N.div n 10) 0 then acc' else digits f (N.div n 10) acc'
  end.

Definition str_N (n : N) : string := digits (S (N.size_nat n)) n "".

Definition str_Z (z : Z) : string :=
  match z with
  | Zneg p => "-" ++ str_N (Npos p)
  | _ => str_N (Z.to_N z)
  end.

End Py.

Import Py.

(** ** [urllib.parse.urljoin]

    The relative-reference resolution of CPython's [urllib.parse]
    ([urlsplit], [urlunsplit], [urljoin]).  Queries, fragments and [;params]
    are kept inside the path component: the URLs of this program carry
    none. *)

Module Url.

Definition scheme_chars (a : ascii) : bool :=
  is_alpha a || is_digit a || Ascii.eqb a "+"%char || Ascii.eqb a "-"%char
  || Ascii.eqb a "."%char.

Definition uses_relative : list string :=
  [""; "ftp"; "http"; "gopher"; "nntp"; "imap"; "wais"; "file"; "https";
   "shttp"; "mms"; "prospero"; "rtsp"; "rtspu"; "sftp"; "svn"; "svn+ssh";
   "ws"; "wss"].

Definition uses_netloc : list string :=
  [""; "ftp"; "http"; "gopher"; "nntp"; "telnet"; "imap"; "wais"; "file";
   "mms"; "https"; "shttp"; "snews"; "prospero"; "rtsp"; "rtspu"; "rsync";
   "svn"; "svn+ssh"; "sftp"; "nfs"; "git"; "git+ssh"; "ws"; "wss"].

Record split_result := { u_scheme : string; u_netloc : string; u_path : string }.

(** The scheme prefix: [i = url.find(':')], kept when [i > 0], [url[0]] is
    a letter and every character of [url[:i]] is a scheme character. *)
Definition split_scheme (url default : string) : string * string :=
  match find_index (Ascii.eqb ":"%char) url, url with
  | Some (S i), String c0 _ =>
      if is_alpha c0 && all_chars scheme_chars (substring 0 (S i) url)
      then (lower (substring 0 (S i) url), substring (S (S i)) (String.length url - S (S i)) url)
      else (default, url)
  | _, _ => (default, url)
  end.

Definition netloc_delim (a : ascii) : bool :=
  Ascii.eqb a "/"%char || Ascii.eqb a "?"%char || Ascii.eqb a "#"%char.

Definition urlsplit (url default : string) : split_result :=
  let '(sch, rest) := split_scheme url default in
  if prefix "//" rest then
    let r := substring 2 (String.length rest - 2) rest in
    let d := match find_index netloc_delim r with Some d => d | None => String.length r end in
    {| u_scheme := sch; u_netloc := substring 0 d r; u_path := substring d (String.length r - d) r |}
  else {| u_scheme := sch; u_netloc := ""; u_path := rest |}.

Definition urlunsplit (scheme netloc path : string) : string :=
  let path1 :=
    if negb (String.eqb netloc "")
       || (negb (String.eqb scheme "") && mem scheme uses_netloc && negb (prefix "//" path))
    then "//" ++ netloc
         ++ (if negb (String.eqb path "") && negb (prefix "/" path) then "/" ++ path else path)
    else path in
  if String.eqb scheme "" then path1 else scheme ++ ":" ++ path1.

(** [segments[1:-1] = filter(None, segments[1:-1])] *)
Definition filter_middle (l : list string) : list string :=
  match l with
  | [] => []
  | [x] => [x]
  | x :: r => (x :: filter (fun s => negb (String.eqb s "")) (removelast r) ++ [last r ""])%list
  end.

(** The loop over [segments] with the stack [resolved_path] (kept
    reversed); popping an empty stack does nothing. *)
Fixpoint resolve_dots (segs acc : list string) : list string :=
  match segs with
  | [] => rev acc
  | s :: r =>
      if String.eqb s ".." then resolve_dots r (tl acc)
      else if String.eqb s "." then resolve_dots r acc
      else resolve_dots r (s :: acc)
  end.

Definition urljoin (base url : string) : string :=
  if String.eqb base "" then url
  else if String.eqb url "" then base
  else
    let b := urlsplit base "" in
    let u := urlsplit url (u_scheme b) in
    if negb (String.eqb (u_scheme u) (u_scheme b)) || negb (mem (u_scheme u) uses_relative)
    then url
    else
      let netloc :=
        if mem (u_scheme u) uses_netloc then
          if negb (String.eqb (u_netloc u) "") then None else Some (u_netloc b)
        else Some (u_netloc u) in
      match netloc with
      | None => urlunsplit (u_scheme u) (u_netloc u) (u_path u)
      | Some netloc =>
          if String.eqb (u_path u) "" then urlunsplit (u_scheme u) netloc (u_path b)
          else
            let bp := split "/"%char (u_path b) in
            let base_parts := if String.eqb (last bp "") "" then bp else removelast bp in
            let segments :=
              if prefix "/" (u_path u) then split "/"%char (u_path u)
              else filter_middle (base_parts ++ split "/"%char (u_path u))%list in
            let resolved := resolve_dots segments [] in
            let resolved :=
              if String.eqb (last segments "") "." || String.eqb (last segments "") ".."
              then (resolved ++ [""])%list else resolved in
            let p := join "/" resolved in
            urlunsplit (u_scheme u) netloc (if String.eqb p "" then "/" else p)
      end.

End Url.

Import Url.

(** ** Configuration and exceptions *)

(** [ViteConfig]; [run_command] and [build_command] are not read by the
    loader. *)
Record ViteConfig := {
  hot_reload : bool;
  is_react : bool;
  static_url : string;
  static_dir : string;
  host : string;
  protocol : string;
  port : Z
}.

Definition MANIFEST_NAME : string := "manifest.json".

(** [Path(vite_config.static_dir / MANIFEST_NAME)] *)
Definition manifest_path (cfg : ViteConfig) : string :=
  static_dir cfg ++ "/" ++ MANIFEST_NAME.

(** Python exceptions raised by the module: the constructor's arguments
    are the exception's [args]. *)
Inductive Exc :=
| RuntimeError (msg : string) (args : list string)
| KeyError (key : string)
| FileNotFoundError (filename : string)
| ImproperlyConfiguredException (msg : string).

(** A Python call: a value, a raised exception, or (for the fuel-indexed
    recursion of [generate_vite_asset]) a call that has not returned within
    the given recursion depth. *)
Inductive Outcome (A : Type) :=
| Ret (a : A)
| Raise (e : Exc)
| OutOfFuel.
Arguments Ret {A} a.
Arguments Raise {A} e.
Arguments OutOfFuel {A}.

(** ** HTML tags *)

(** A [dict[str, str]] of script attributes, in insertion order. *)
Definition Attrs := list (string * string).

(** [ViteAssetLoader._script_tag] *)
Definition _script_tag (src : string) (attrs : option Attrs) : string :=
  let attrs_str :=
    match attrs with
    | None => ""
    | Some l => join " " (map (fun '(key, value) => key ++ "=" ++ dq ++ value ++ dq) l)
    end in
  "<script " ++ attrs_str ++ " src=" ++ dq ++ src ++ dq ++ "></script>".

(** [ViteAssetLoader._style_tag] *)
Definition _style_tag (href : string) : string :=
  "<link rel=" ++ dq ++ "stylesheet" ++ dq ++ " href=" ++ dq ++ href ++ dq ++ " />".

(** [ViteAssetLoader._vite_server_url] *)
Definition _vite_server_url (cfg : ViteConfig) (path : option string) : string :=
  let base_path := protocol cfg ++ "://" ++ host cfg ++ ":" ++ str_Z (port cfg) in
  urljoin base_path (urljoin (static_url cfg) (match path with Some p => p | None => "" end)).

(** ** The manifest *)

(** An entry of the parsed manifest: the keys read by the loader; [None]
    when the key is absent from the JSON object. *)
Record ManifestEntry := {
  file : option string;
  css : option (list string);
  imports : option (list string)
}.

(** The parsed manifest, a JSON object: keys in document order. *)
Definition Manifest := list (string * ManifestEntry).

Fixpoint lookup (k : string) (m : Manifest) : option ManifestEntry :=
  match m with
  | [] => None
  | (k', e) :: r => if String.eqb k k' then Some e else lookup k r
  end.

Definition default_attrs : Attrs := [("type", "module"); ("async", ""); ("defer", "")].

(** [if not scripts_attrs: scripts_attrs = {...}]: [None] and the empty
    dict are both replaced by the default. *)
Definition effective_attrs (scripts_attrs : option Attrs) : Attrs :=
  match scripts_attrs with
  | None | Some [] => default_attrs
  | Some l => l
  end.

(** Sequential evaluation of the calls of a [for] loop, stopping at the
    first exception. *)
Fixpoint map_outcome (f : string -> Outcome string) (l : list string) : Outcome (list string) :=
  match l with
  | [] => Ret []
  | x :: r =>
      match f x with
      | Ret s =>
          match map_outcome f r with
          | Ret ss => Ret (s :: ss)
          | Raise e => Raise e
          | OutOfFuel => OutOfFuel
          end
      | Raise e => Raise e
      | OutOfFuel => OutOfFuel
      end
  end.

(** [ViteAssetLoader.generate_vite_asset]; [fuel] bounds the depth of the
    recursion through [imports]. *)
Fixpoint generate_vite_asset (fuel : nat) (cfg : ViteConfig) (m : Manifest)
    (path : string) (scripts_attrs : option Attrs) : Outcome string :=
  if hot_reload cfg then
    Ret (_script_tag (_vite_server_url cfg (Some path)) (Some default_attrs))
  else
    match lookup path m with
    | None =>
        Raise (RuntimeError "Cannot find %s in Vite manifest at %s" [path; manifest_path cfg])
    | Some manifest_entry =>
        let sa := effective_attrs scripts_attrs in
        let css_tags :=
          match css manifest_entry with
          | Some l => map (fun css_path => _style_tag (urljoin (static_url cfg) css_path)) l
          | None => []
          end in
        let recurse :=
          match fuel with
          | O => fun _ => OutOfFuel
          | S f => fun vendor_path => generate_vite_asset f cfg m vendor_path (Some sa)
          end in
        match map_outcome recurse (match imports manifest_entry with Some l => l | None => [] end) with
        | Raise e => Raise e
        | OutOfFuel => OutOfFuel
        | Ret vendor_tags =>
            match file manifest_entry with
            | None => Raise (KeyError "file")
            | Some f =>
                Ret (join nl (css_tags ++ vendor_tags
                              ++ [_script_tag (urljoin (static_url cfg) f) (Some sa)])%list)
            end
        end
    end.

(** The class state of [ViteAssetLoader]: the singleton [_instance] and
    the [_manifest] read by [generate_vite_asset]. *)
Record LoaderState := {
  _instance : bool;
  _manifest : Manifest
}.

(** [ViteAssetLoader().generate_vite_asset(path, scripts_attrs)] as a
    state transformer on the class state. *)
Definition loader_generate_vite_asset (fuel : nat) (cfg : ViteConfig) (st : LoaderState)
    (path : string) (scripts_attrs : option Attrs) : Outcome string * LoaderState :=
  (generate_vite_asset fuel cfg (_manifest st) path scripts_attrs, st).

(** ** Reading the manifest *)

(** JSON values as returned by [json.loads]. *)
Inductive Json :=
| JNull
| JBool (b : bool)
| JNumber (z : Z)
| JString (s : string)
| JArray (l : list Json)
| JObject (l : list (string * Json)).

(** The file system: the contents of the file at a path, [None] when
    there is no file there. *)
Definition FileSystem := string -> option string.

Section ParseManifest.

(** [json.loads]: [None] when the decoder raises. *)
Variable json_loads : string -> option Json.

(** [ViteAssetLoader.parse_manifest]: the [open()] and [read()] are outside
    the [try] block, only [json.loads] is inside it. *)
Definition parse_manifest (cfg : ViteConfig) (fs : FileSystem) : Outcome Json :=
  if negb (hot_reload cfg) then
    match fs (manifest_path cfg) with
    | None => Raise (FileNotFoundError (manifest_path cfg))
    | Some manifest_content =>
        match json_loads manifest_content with
        | None => Raise (RuntimeError "Cannot read Vite manifest file at %s" [manifest_path cfg])
        | Some manifest => Ret manifest
        end
    end
  else Ret (JObject []).

End ParseManifest.

(** ** HMR tags *)

(** [ViteAssetLoader.generate_vite_ws_client] *)
Definition generate_vite_ws_client (cfg : ViteConfig) : string :=
  if negb (hot_reload cfg) then ""
  else _script_tag (_vite_server_url cfg (Some "@vite/client")) (Some [("type", "module")]).

(** The sixteen spaces of indentation inside the f-string. *)
Definition indent : string := "                ".

(** [ViteAssetLoader.generate_vite_react_hmr] *)
Definition generate_vite_react_hmr (cfg : ViteConfig) : string :=
  if is_react cfg && hot_reload cfg then
    nl ++ indent ++ "<script type=" ++ dq ++ "module" ++ dq ++ ">" ++ nl
    ++ indent ++ "import RefreshRuntime from '" ++ _vite_server_url cfg None ++ "@react-refresh'" ++ nl
    ++ indent ++ "RefreshRuntime.injectIntoGlobalHook(window)" ++ nl
    ++ indent ++ "window.$RefreshReg$ = () => {}" ++ nl
    ++ indent ++ "window.$RefreshSig$ = () => (type) => type" ++ nl
    ++ indent ++ "window.__vite_plugin_react_preamble_installed__=true" ++ nl
    ++ indent ++ "</script>" ++ nl
    ++ indent
  else "".

(** [ViteTemplateEngine.hmr_client]; [markupsafe.Markup] leaves the text
    unchanged. *)
Definition hmr_client (cfg : ViteConfig) : string :=
  join nl [generate_vite_react_hmr cfg; generate_vite_ws_client cfg].

(** ** The template configuration *)

Module TemplateConfig.

(** A template engine object, by identity. *)
Definition Engine := nat.

(** [PathType | list[PathType]]: a [str], a [Path] or a list. *)
Inductive PathArg :=
| PStr (s : string)
| PPath (s : string)
| PList (l : list PathArg).

(** Python truthiness of [self.directory]: a [Path] object is always
    true. *)
Definition truthy (d : option PathArg) : bool :=
  match d with
  | None => false
  | Some (PStr s) => negb (String.eqb s "")
  | Some (PPath _) => true
  | Some (PList l) => match l with [] => false | _ => true end
  end.

(** [engine: type[ViteTemplateEngine] | ViteTemplateEngine] *)
Inductive EngineArg :=
| EngineClass
| EngineInstance (e : Engine).

Definition isclass (e : EngineArg) : bool :=
  match e with EngineClass => true | EngineInstance _ => false end.

(** A [ViteTemplateConfig] object: its fields ([config] is not read by
    these methods; [engine_callback] is [None] or a callable) and the
    [__dict__] slot of the [engine_instance] cached property. *)
Record ViteTemplateConfig := {
  engine : EngineArg;
  directory : option PathArg;
  engine_callback : bool;
  engine_instance_cache : option Engine
}.

(** The observable effects of [to_engine]: an engine constructed by
    [ViteTemplateEngine(directory)], a call of [engine_callback]. *)
Inductive Event :=
| Constructed (e : Engine) (dir : option PathArg)
| CallbackCalled (e : Engine).

(** The heap (the next fresh object) and the trace of effects.  The
    construction of an engine is modelled as always returning. *)
Record World := {
  next_obj : nat;
  events : list Event
}.

(** The dataclass constructor followed by [__post_init__]. *)
Definition make_config (eng : EngineArg) (dir : option PathArg) (cb : bool)
    : Outcome ViteTemplateConfig :=
  if isclass eng && negb (truthy dir) then
    Raise (ImproperlyConfiguredException
             "directory is a required kwarg when passing a template engine class")
  else Ret {| engine := eng; directory := dir; engine_callback := cb;
              engine_instance_cache := None |}.

(** [ViteTemplateConfig.to_engine] *)
Definition to_engine (c : ViteTemplateConfig) (w : World) : Engine * World :=
  let '(template_engine, w1) :=
    match engine c with
    | EngineClass =>
        (next_obj w, {| next_obj := S (next_obj w);
                        events := (events w ++ [Constructed (next_obj w) (directory c)])%list |})
    | EngineInstance e => (e, w)
    end in
  if engine_callback c then
    (template_engine, {| next_obj := next_obj w1;
                         events := (events w1 ++ [CallbackCalled template_engine])%list |})
  else (template_engine, w1).

(** [ViteTemplateConfig.engine_instance], a [functools.cached_property]. *)
Definition engine_instance (c : ViteTemplateConfig) (w : World)
    : Engine * ViteTemplateConfig * World :=
  match engine_instance_cache c with
  | Some e => (e, c, w)
  | None =>
      let '(e, w') := to_engine c w in
      (e, {| engine := engine c; directory := directory c; engine_callback := engine_callback c;
             engine_instance_cache := Some e |}, w')
  end.

(** [n] successive reads of [engine_instance]: the engines returned. *)
Fixpoint access_n (n : nat) (c : ViteTemplateConfig) (w : World)
    : list Engine * ViteTemplateConfig * World :=
  match n with
  | O => ([], c, w)
  | S k =>
      let '(e, c1, w1) := engine_instance c w in
      let '(es, c2, w2) := access_n k c1 w1 in
      (e :: es, c2, w2)
  end.

End TemplateConfig.

(** ** The import graph *)

Definition list_of (o : option (list string)) : list string :=
  match o with Some l => l | None => [] end.

Module Imports.

(** The [imports] of the entry at [k]. *)
Definition imports_of (m : Manifest) (k : string) : list string :=
  match lookup k m with
  | Some e => list_of (imports e)
  | None => []
  end.

(** [u] imports [v]. *)
Definition edge (m : Manifest) (u v : string) : Prop := In v (imports_of m u).

Definition reachable (m : Manifest) (k v : string) : Prop :=
  clos_refl_trans string (edge m) k v.

(** No cycle through a key reachable from [k]. *)
Definition acyclic_from (m : Manifest) (k : string) : Prop :=
  forall v, reachable m k v -> ~ clos_trans string (edge m) v v.

(** Every key reachable from [k] is in the manifest with a [file]. *)
Definition well_formed_from (m : Manifest) (k : string) : Prop :=
  forall v, reachable m k v -> exists e f, lookup v m = Some e /\ file e = Some f.

(** Every import chain from [k] has at most [n] steps. *)
Fixpoint bounded (m : Manifest) (n : nat) (k : string) : Prop :=
  match n with
  | O => forall v, ~ edge m k v
  | S n' => forall v, edge m k v -> bounded m n' v
  end.

End Imports.

Import Imports.

(** ** Concrete configurations and manifests *)

(** [ViteConfig] with its defaults and [hot_reload] as given. *)
Definition cfg_with (hot react : bool) : ViteConfig :=
  {| hot_reload := hot; is_react := react; static_url := "/static/"; static_dir := "/app/static";
     host := "localhost"; protocol := "http"; port := 3000 |}.

Definition entry (f : string) (c i : option (list string)) : ManifestEntry :=
  {| file := Some f; css := c; imports := i |}.

(** The manifest of the spec's example. *)
Definition main_manifest : Manifest :=
  [("main.js", entry "assets/main.123.js" (Some ["assets/main.css"]) None)].

(** A diamond: [main.js] imports [a.js] and [b.js], both import
    [shared.js]. *)
Definition diamond_manifest : Manifest :=
  [("main.js", entry "assets/main.js" (Some ["assets/main.css"]) (Some ["a.js"; "b.js"]));
   ("a.js", entry "assets/a.js" None (Some ["shared.js"]));
   ("b.js", entry "assets/b.js" (Some ["assets/b.css"]) (Some ["shared.js"]));
   ("shared.js", entry "assets/shared.js" None None)].

Definition diamond_output : string :=
  Eval vm_compute in
    match generate_vite_asset 2 (cfg_with false false) diamond_manifest "main.js" None with
    | Ret s => s
    | _ => ""
    end.

(** The manifest of the counterexample: [a.js] imports the missing
    [x.js], then itself. *)
Definition self_import_manifest : Manifest :=
  [("a.js", entry "assets/a.js" None (Some ["x.js"; "a.js"]))].

(** A cycle of well-formed entries: [a.js] imports itself. *)
Definition loop_manifest : Manifest :=
  [("a.js", entry "assets/a.js" None (Some ["a.js"]))].

(** A rank decreasing along the imports of [diamond_manifest]. *)
Definition diamond_rank (k : string) : nat :=
  if String.eqb k "main.js" then 3 else if String.eqb k "shared.js" then 1 else 2.

(** ** The loader singleton *)

(** The class attributes of [ViteAssetLoader] as [__new__] sees them:
    [_instance] (the object, by identity) and [_manifest] (the parsed
    JSON). *)
Record LoaderClass := {
  cls_instance : option nat;
  cls_manifest : Json
}.

(** [ViteAssetLoader.__new__]; [fresh] is the object [super().__new__(cls)]
    allocates.  [_manifest] is assigned before [_instance], and neither is
    assigned when [parse_manifest] raises. *)
Definition ViteAssetLoader_new (json_loads : string -> option Json) (cfg : ViteConfig)
    (fs : FileSystem) (fresh : nat) (st : LoaderClass) : Outcome nat * LoaderClass :=
  match cls_instance st with
  | Some i => (Ret i, st)
  | None =>
      match parse_manifest json_loads cfg fs with
      | Ret m => (Ret fresh, {| cls_instance := Some fresh; cls_manifest := m |})
      | Raise e => (Raise e, st)
      | OutOfFuel => (OutOfFuel, st)
      end
  end.

(** ** [ViteConfig.parse_obj] *)

Module Settings.

(** The Python values passed to [parse_obj]. *)
Inductive PyVal :=
| VBool (b : bool)
| VInt (z : Z)
| VStr (s : string)
| VPath (p : string)
| VList (l : list PyVal).

Fixpoint lookup_val (k : string) (d : list (string * PyVal)) : option PyVal :=
  match d with
  | [] => None
  | (k', v) :: r => if String.eqb k k' then Some v else lookup_val k r
  end.

Definition obind {A B} (o : option A) (f : A -> option B) : option B :=
  match o with Some a => f a | None => None end.

(** Field validation: an absent key takes the default; a value of the
    field's type is kept ([str] is accepted for a [Path]).  Pydantic's
    coercions between other types are not modelled: such values are
    rejected here ([None] is a [ValidationError]). *)
Definition bool_field (v : option PyVal) (default : bool) : option bool :=
  match v with None => Some default | Some (VBool b) => Some b | Some _ => None end.

Definition str_field (v : option PyVal) (default : string) : option string :=
  match v with None => Some default | Some (VStr s) => Some s | Some _ => None end.

Definition int_field (v : option PyVal) (default : Z) : option Z :=
  match v with None => Some default | Some (VInt z) => Some z | Some _ => None end.

(** [static_dir: Path] has no default. *)
Definition path_field (v : option PyVal) : option string :=
  match v with Some (VPath p) | Some (VStr p) => Some p | _ => None end.

Definition is_str (v : PyVal) : bool := match v with VStr _ => true | _ => false end.

(** [run_command: list[str]] and [build_command: list]; the loader never
    reads them, so only their validation is kept. *)
Definition list_field (items : PyVal -> bool) (v : option PyVal) : option unit :=
  match v with
  | None => Some tt
  | Some (VList l) => if forallb items l then Some tt else None
  | Some _ => None
  end.

(** [ViteConfig.parse_obj(d)]: keys that are not fields are ignored
    (pydantic's default [Extra.ignore]). *)
Definition parse_obj (d : list (string * PyVal)) : option ViteConfig :=
  obind (bool_field (lookup_val "hot_reload" d) false) (fun hr =>
  obind (bool_field (lookup_val "is_react" d) false) (fun ir =>
  obind (str_field (lookup_val "static_url" d) "/static/") (fun su =>
  obind (path_field (lookup_val "static_dir" d)) (fun sd =>
  obind (str_field (lookup_val "host" d) "localhost") (fun h =>
  obind (str_field (lookup_val "protocol" d) "http") (fun pr =>
  obind (int_field (lookup_val "port" d) 3000) (fun po =>
  obind (list_field is_str (lookup_val "run_command" d)) (fun _ =>
  obind (list_field (fun _ => true) (lookup_val "build_command" d)) (fun _ =>
  Some {| hot_reload := hr; is_react := ir; static_url := su; static_dir := sd;
          host := h; protocol := pr; port := po |}))))))))).

(** The module-level [vite_config], from [settings.app.DEBUG],
    [settings.app.STATIC_URL] and [settings.app.STATIC_DIR]. *)
Definition vite_config_of (debug : bool) (static_url_setting static_dir_setting : string)
    : option ViteConfig :=
  parse_obj [("hot_reload", VBool debug); ("assets_path", VStr static_url_setting);
             ("static_dir", VPath static_dir_setting)].

End Settings.

(** ** The dev-server runner *)

Module Runner.

Inductive RunExc :=
| KeyboardInterrupt
| OtherException (name : string).

(** A structured log record: the event and the [message] keyword. *)
Record LogEntry := {
  log_event : string;
  log_message : option string
}.

(** [text.replace("\n", "")] *)
Fixpoint strip_newlines (s : string) : string :=
  match s with
  | EmptyString => EmptyString
  | String a r =>
      if Ascii.eqb a (ascii_of_nat 10) then strip_newlines r else String a (strip_newlines r)
  end.

(** [_run_vite]: the text chunks read from the child's stdout, each logged
    as it arrives, and the exception, if any, that ends the loop. *)
Definition _run_vite (chunks : list string) (stop : option RunExc)
    : list LogEntry * option RunExc :=
  (map (fun text => {| log_event := "Vite"; log_message := Some (strip_newlines text) |}) chunks,
   stop).

(** [run_vite]: the [finally] logs the shutdown, then
    [contextlib.suppress(KeyboardInterrupt)] swallows that exception only. *)
Definition run_vite (chunks : list string) (stop : option RunExc) : list LogEntry * option RunExc :=
  let '(log, exc) := _run_vite chunks stop in
  ((log ++ [{| log_event := "Vite Service stopped."; log_message := None |}])%list,
   match exc with Some KeyboardInterrupt => None | e => e end).

(** The logged messages. *)
Definition messages (log : list LogEntry) : list string :=
  flat_map (fun e => match log_message e with Some m => [m] | None => [] end) log.

End Runner.

(** A manifest whose entry imports a missing key. *)
Definition missing_import_manifest : Manifest :=
  [("main.js", entry "assets/main.js" None (Some ["shared.js"; "missing.js"]));
   ("shared.js", entry "assets/shared.js" None None)].


(** ** Lemmas on the tag generator *)

Lemma generate_vite_asset_effective : forall fuel cfg m p a,
  generate_vite_asset fuel cfg m p (Some (effective_attrs a)) = generate_vite_asset fuel cfg m p a.
Proof. intros [|fuel] cfg m p [[|x l]|]; reflexivity. Qed.

Lemma map_outcome_ret : forall f l ss,
  map_outcome f l = Ret ss -> Forall2 (fun x s => f x = Ret s) l ss.
Proof.
  intros f l; induction l as [|x r IH]; intros ss H; simpl in H.
  - injection H as <-. constructor.
  - destruct (f x) eqn:Fx; try discriminate.
    destruct (map_outcome f r) eqn:Fr; try discriminate.
    injection H as <-. constructor; auto.
Qed.

(** ** C1: manifest mode *)

(** C1.  In manifest mode, a call on a path present in the manifest that
    returns a string returns the newline-join of: one stylesheet link per
    [css] entry (resolved with [urljoin] against [static_url]), then the
    strings returned by the recursive calls on the [imports] entries, in
    list order and with the same [scripts_attrs] (no deduplication), then
    one script tag for the entry's [file] with the given attributes, or the
    default [{type: module, async, defer}] when none (or an empty dict) is
    given. *)
Theorem generate_vite_asset_manifest_mode :
  forall fuel cfg m path scripts_attrs e s,
  hot_reload cfg = false ->
  lookup path m = Some e ->
  generate_vite_asset (S fuel) cfg m path scripts_attrs = Ret s ->
  exists f vendor_tags,
    file e = Some f /\
    Forall2 (fun vendor_path t => generate_vite_asset fuel cfg m vendor_path scripts_attrs = Ret t)
            (list_of (imports e)) vendor_tags /\
    s = join nl (map (fun css_path => _style_tag (urljoin (static_url cfg) css_path)) (list_of (css e))
                 ++ vendor_tags
                 ++ [_script_tag (urljoin (static_url cfg) f) (Some (effective_attrs scripts_attrs))])%list.
Proof.
  intros fuel cfg m path a e s Hhot Hl Hg.
  simpl in Hg. rewrite Hhot, Hl in Hg.
  destruct (map_outcome _ _) as [vendor_tags| |] eqn:Hm; try discriminate.
  destruct (file e) as [f|] eqn:Hf; try discriminate.
  injection Hg as <-.
  exists f, vendor_tags. split; [reflexivity|]. split.
  - apply map_outcome_ret in Hm. unfold list_of.
    eapply Forall2_impl; [|exact Hm]. intros x t Hx. simpl in Hx.
    rewrite generate_vite_asset_effective in Hx. exact Hx.
  - unfold list_of. destruct (css e); reflexivity.
Qed.

Lemma generate_vite_asset_manifest_mode_witness :
  exists f vendor_tags,
    file (entry "assets/main.js" (Some ["assets/main.css"]) (Some ["a.js"; "b.js"])) = Some f /\
    Forall2 (fun vendor_path t =>
               generate_vite_asset 1 (cfg_with false false) diamond_manifest vendor_path None = Ret t)
            (list_of (imports (entry "assets/main.js" (Some ["assets/main.css"]) (Some ["a.js"; "b.js"]))))
            vendor_tags /\
    diamond_output =
      join nl (map (fun css_path => _style_tag (urljoin "/static/" css_path))
                 (list_of (css (entry "assets/main.js" (Some ["assets/main.css"]) (Some ["a.js"; "b.js"]))))
               ++ vendor_tags
               ++ [_script_tag (urljoin "/static/" f) (Some (effective_attrs None))])%list.
Proof.
  apply (generate_vite_asset_manifest_mode 1 (cfg_with false false) diamond_manifest "main.js" None
           (entry "assets/main.js" (Some ["assets/main.css"]) (Some ["a.js"; "b.js"])) diamond_output);
    vm_compute; reflexivity.
Defined.

(** The diamond's shared import is expanded twice. *)
Example diamond_output_value :
  diamond_output =
    join nl [_style_tag "/static/assets/main.css";
             _script_tag "/static/assets/shared.js" (Some default_attrs);
             _script_tag "/static/assets/a.js" (Some default_attrs);
             _style_tag "/static/assets/b.css";
             _script_tag "/static/assets/shared.js" (Some default_attrs);
             _script_tag "/static/assets/b.js" (Some default_attrs);
             _script_tag "/static/assets/main.js" (Some default_attrs)].
Proof. vm_compute. reflexivity. Qed.

(** ** C2: the spec's example *)

(** C2.  With [hot_reload = false], [static_url = "/static/"] and the
    manifest [{"main.js": {"file": "assets/main.123.js", "css":
    ["assets/main.css"]}}], [generate_vite_asset("main.js")] returns the
    stylesheet link, a newline and the default module script tag. *)
Theorem generate_vite_asset_main_example : forall fuel,
  generate_vite_asset fuel (cfg_with false false) main_manifest "main.js" None =
  Ret ("<link rel=" ++ dq ++ "stylesheet" ++ dq ++ " href=" ++ dq ++ "/static/assets/main.css" ++ dq
       ++ " />" ++ nl
       ++ "<script type=" ++ dq ++ "module" ++ dq ++ " async=" ++ dq ++ dq ++ " defer=" ++ dq ++ dq
       ++ " src=" ++ dq ++ "/static/assets/main.123.js" ++ dq ++ "></script>").
Proof. intros [|fuel]; vm_compute; reflexivity. Qed.

(** ** C4: hot-reload mode *)

(** C4.  With hot reload on, every call returns, whatever the manifest,
    the path and the attributes, one module script tag with attributes
    [{type: module, async, defer}] and source [_vite_server_url(path)],
    i.e. [urljoin("protocol://host:port", urljoin(static_url, path))]; for
    [localhost], port 3000, [/static/] and [main.js] that source is
    [http://localhost:3000/static/main.js]. *)
Theorem generate_vite_asset_hot_reload :
  (forall fuel cfg m path scripts_attrs,
     hot_reload cfg = true ->
     generate_vite_asset fuel cfg m path scripts_attrs =
     Ret (_script_tag (urljoin (protocol cfg ++ "://" ++ host cfg ++ ":" ++ str_Z (port cfg))
                              (urljoin (static_url cfg) path))
                      (Some [("type", "module"); ("async", ""); ("defer", "")]))) /\
  (forall fuel m scripts_attrs,
     generate_vite_asset fuel (cfg_with true false) m "main.js" scripts_attrs =
     Ret (_script_tag "http://localhost:3000/static/main.js" (Some default_attrs))).
Proof.
  split.
  - intros [|fuel] cfg m path a H; simpl; rewrite H; reflexivity.
  - intros [|fuel] m a; vm_compute; reflexivity.
Qed.

Lemma generate_vite_asset_hot_reload_witness :
  generate_vite_asset 0 (cfg_with true false) [] "main.js" None =
  Ret (_script_tag (urljoin ("http" ++ "://" ++ "localhost" ++ ":" ++ str_Z 3000)
                           (urljoin "/static/" "main.js"))
                   (Some [("type", "module"); ("async", ""); ("defer", "")])).
Proof.
  apply (proj1 generate_vite_asset_hot_reload 0 (cfg_with true false) [] "main.js" None).
  reflexivity.
Defined.

(** ** C5: missing asset *)

(** C5.  In manifest mode, a path absent from the stored manifest makes
    the call raise [RuntimeError("Cannot find %s in Vite manifest at %s",
    path, manifest path)], with no tags, and leaves the loader's class state
    (singleton and manifest) as it was. *)
Theorem generate_vite_asset_not_found :
  forall fuel cfg st path scripts_attrs,
  hot_reload cfg = false ->
  lookup path (_manifest st) = None ->
  loader_generate_vite_asset fuel cfg st path scripts_attrs =
  (Raise (RuntimeError "Cannot find %s in Vite manifest at %s" [path; manifest_path cfg]), st).
Proof.
  intros [|fuel] cfg st path a Hhot Hl; unfold loader_generate_vite_asset; simpl;
    rewrite Hhot, Hl; reflexivity.
Qed.

Lemma generate_vite_asset_not_found_witness :
  loader_generate_vite_asset 3 (cfg_with false false) {| _instance := true; _manifest := main_manifest |}
    "other.js" None =
  (Raise (RuntimeError "Cannot find %s in Vite manifest at %s" ["other.js"; "/app/static/manifest.json"]),
   {| _instance := true; _manifest := main_manifest |}).
Proof.
  apply (generate_vite_asset_not_found 3 (cfg_with false false)
           {| _instance := true; _manifest := main_manifest |} "other.js" None);
    reflexivity.
Defined.

(** ** C6: the import graph and termination *)

Module ImportsFacts.

Lemma lookup_key : forall m k e, lookup k m = Some e -> In k (map fst m).
Proof.
  induction m as [|[k' e'] r IH]; intros k e H; simpl in *; [discriminate|].
  destruct (String.eqb_spec k k'); [left; congruence|right; eauto].
Qed.

Lemma edge_key : forall m u v, edge m u v -> In u (map fst m).
Proof.
  unfold edge, imports_of. intros m u v H.
  destruct (lookup u m) eqn:E; [eapply lookup_key; eauto|destruct H].
Qed.

Lemma edge_imports : forall m u v e,
  lookup u m = Some e -> In v (list_of (imports e)) -> edge m u v.
Proof. unfold edge, imports_of. intros m u v e -> H. exact H. Qed.

Lemma map_outcome_not_fuel : forall f l,
  (forall x, In x l -> f x <> OutOfFuel) -> map_outcome f l <> OutOfFuel.
Proof.
  intros f l; induction l as [|x r IH]; intros H; simpl; [discriminate|].
  destruct (f x) eqn:Fx.
  - destruct (map_outcome f r) eqn:Fr; try discriminate.
    exfalso; apply IH; [intros y Hy; apply H; right; exact Hy|reflexivity].
  - discriminate.
  - exfalso; apply (H x); [left; reflexivity|exact Fx].
Qed.

Lemma map_outcome_no_raise : forall f l,
  (forall x e, In x l -> f x <> Raise e) -> forall e, map_outcome f l <> Raise e.
Proof.
  intros f l; induction l as [|x r IH]; intros H e; simpl; [discriminate|].
  assert (Hr : forall e', map_outcome f r <> Raise e')
    by (apply IH; intros y e' Hy; apply H; right; exact Hy).
  destruct (f x) eqn:Fx.
  - destruct (map_outcome f r) eqn:Fr; try discriminate.
    exfalso; eapply Hr; reflexivity.
  - exfalso; apply (H x e0); [left; reflexivity|exact Fx].
  - discriminate.
Qed.

Lemma map_outcome_fuel : forall f l x,
  (forall y e, In y l -> f y <> Raise e) -> In x l -> f x = OutOfFuel ->
  map_outcome f l = OutOfFuel.
Proof.
  intros f l; induction l as [|y r IH]; intros x Hr Hin Hx; [destruct Hin|].
  simpl. destruct Hin as [<-|Hin]; [rewrite Hx; reflexivity|].
  destruct (f y) eqn:Fy.
  - rewrite (IH x (fun z e Hz => Hr z e (or_intror Hz)) Hin Hx). reflexivity.
  - exfalso; apply (Hr y e); [left; reflexivity|exact Fy].
  - reflexivity.
Qed.

(** A call whose import chains are bounded by the fuel returns or
    raises. *)
Lemma bounded_returns : forall n cfg m k a,
  bounded m n k -> generate_vite_asset n cfg m k a <> OutOfFuel.
Proof.
  induction n as [|n IH]; intros cfg m k a Hb; simpl;
    (destruct (hot_reload cfg); [discriminate|]);
    (destruct (lookup k m) as [e|] eqn:E; [|discriminate]).
  - destruct (map_outcome _ _) eqn:Hm.
    + destruct (file e); discriminate.
    + discriminate.
    + exfalso. revert Hm. apply map_outcome_not_fuel.
      intros x Hx. exfalso. apply (Hb x). eapply edge_imports; eauto.
  - destruct (map_outcome _ _) eqn:Hm.
    + destruct (file e); discriminate.
    + discriminate.
    + exfalso. revert Hm. apply map_outcome_not_fuel.
      intros x Hx. apply IH. apply Hb. eapply edge_imports; eauto.
Qed.

(** The pigeonhole step: a chain of distinct keys has at most [length m]
    elements. *)
Lemma acyclic_bounded_aux : forall m k n v vis,
  acyclic_from m k ->
  (n + length vis = length m)%nat ->
  reachable m k v ->
  NoDup (v :: vis) ->
  (forall u, In u vis -> clos_trans string (edge m) u v) ->
  (forall u, In u vis -> In u (map fst m)) ->
  bounded m n v.
Proof.
  intros m k n; induction n as [|n IH]; intros v vis Hac Hlen Hr Hnd Hanc Hkeys.
  - intros w Hw.
    assert (Hincl : incl (v :: vis) (map fst m)).
    { intros u [<-|Hu]; [eapply edge_key; eauto|auto]. }
    pose proof (NoDup_incl_length Hnd Hincl) as Hl.
    rewrite length_map in Hl. simpl in Hl. lia.
  - intros w Hw.
    apply (IH w (v :: vis)); auto.
    + simpl. lia.
    + eapply rt_trans; [exact Hr|apply rt_step; exact Hw].
    + constructor; [|exact Hnd].
      intros [<-|Hin].
      * apply (Hac v Hr). apply t_step. exact Hw.
      * apply (Hac w).
        -- eapply rt_trans; [exact Hr|]. apply rt_step. exact Hw.
        -- eapply t_trans; [apply Hanc; exact Hin|apply t_step; exact Hw].
    + intros u [<-|Hu]; [apply t_step; exact Hw|].
      eapply t_trans; [apply Hanc; exact Hu|apply t_step; exact Hw].
    + intros u [<-|Hu]; [eapply edge_key; eauto|auto].
Qed.

Lemma acyclic_bounded : forall m k, acyclic_from m k -> bounded m (length m) k.
Proof.
  intros m k Hac. apply (acyclic_bounded_aux m k (length m) k []); auto.
  - apply rt_refl.
  - constructor; [intros []|constructor].
  - intros u [].
  - intros u [].
Qed.

(** In a well-formed manifest no call raises. *)
Lemma well_formed_no_raise : forall n cfg m k v a,
  well_formed_from m k -> reachable m k v ->
  forall ex, generate_vite_asset n cfg m v a <> Raise ex.
Proof.
  induction n as [|n IH]; intros cfg m k v a Hwf Hr ex; simpl;
    (destruct (hot_reload cfg); [discriminate|]);
    destruct (Hwf v Hr) as (e & f & Hl & Hf); rewrite Hl;
    (destruct (map_outcome _ _) eqn:Hm; [rewrite Hf; discriminate| |discriminate]).
  - intros [= <-]. revert Hm. apply map_outcome_no_raise. intros; discriminate.
  - intros [= <-]. revert Hm. apply map_outcome_no_raise.
    intros x e' Hx. apply (IH cfg m k).
    + exact Hwf.
    + eapply rt_trans; [exact Hr|apply rt_step; eapply edge_imports; eauto].
Qed.

(** A key that reaches a cycle has an import that reaches a cycle. *)
Lemma cycle_step : forall m v w,
  clos_refl_trans string (edge m) v w -> clos_trans string (edge m) w w ->
  exists u w', edge m v u /\ clos_refl_trans string (edge m) u w' /\ clos_trans string (edge m) w' w'.
Proof.
  intros m v w Hvw Hc.
  apply clos_rt_rt1n in Hvw. destruct Hvw as [|y z Hvy Hyw].
  - apply clos_trans_t1n in Hc. inversion Hc as [u Hstep|u z Hvu Huv]; subst.
    + exists v, v. split; [exact Hstep|]. split; [apply rt_refl|].
      apply t_step. exact Hstep.
    + exists u, v. split; [exact Hvu|]. split.
      * apply clos_t_clos_rt. apply clos_t1n_trans. exact Huv.
      * apply clos_t1n_trans. econstructor 2; eauto.
  - exists y, z. split; [exact Hvy|]. split; [apply clos_rt1n_rt; exact Hyw|exact Hc].
Qed.

(** In a well-formed manifest, a key that reaches a cycle never returns. *)
Lemma cycle_diverges : forall n cfg m k v a,
  hot_reload cfg = false -> well_formed_from m k -> reachable m k v ->
  (exists w, clos_refl_trans string (edge m) v w /\ clos_trans string (edge m) w w) ->
  generate_vite_asset n cfg m v a = OutOfFuel.
Proof.
  induction n as [|n IH]; intros cfg m k v a Hhot Hwf Hr (w & Hvw & Hc);
    destruct (cycle_step m v w Hvw Hc) as (u & w' & Hu & Huw & Hc');
    simpl; rewrite Hhot;
    destruct (Hwf v Hr) as (e & f & Hl & Hf); rewrite Hl;
    pose proof Hu as Hu'; unfold edge, imports_of in Hu'; rewrite Hl in Hu'.
  - erewrite map_outcome_fuel; [reflexivity| |exact Hu'|reflexivity].
    intros; discriminate.
  - erewrite map_outcome_fuel; [reflexivity| |exact Hu'|].
    + intros y ex Hy. apply (well_formed_no_raise n cfg m k); [exact Hwf|].
      eapply rt_trans; [exact Hr|apply rt_step; eapply edge_imports; eauto].
    + apply (IH cfg m k); auto.
      * eapply rt_trans; [exact Hr|apply rt_step; exact Hu].
      * exists w'. auto.
Qed.

(** A set of keys closed under [edge] contains everything reachable from
    its members. *)
Lemma reachable_within : forall m k l v,
  (forall u w, In u l -> edge m u w -> In w l) -> In k l -> reachable m k v -> In v l.
Proof.
  intros m k l v Hcl Hk Hr. revert Hk.
  induction Hr as [x y Hxy|x|x y z _ IH1 _ IH2]; intros Hx; eauto.
Qed.

(** A rank that decreases along every edge out of a closed set rules out
    cycles. *)
Lemma ranked_acyclic : forall m k l (rank : string -> nat),
  (forall u w, In u l -> edge m u w -> In w l /\ rank w < rank u) ->
  In k l -> acyclic_from m k.
Proof.
  intros m k l rank H Hk v Hv Hc.
  assert (Hvl : In v l).
  { apply (reachable_within m k l v); [intros u w Hu Hw; apply (H u w Hu Hw)|exact Hk|exact Hv]. }
  assert (Hdec : forall x y, clos_trans string (edge m) x y -> In x l -> In y l /\ rank y < rank x).
  { intros x y Hxy. induction Hxy as [x y Hxy|x y z _ IH1 _ IH2]; intros Hx.
    - apply H; assumption.
    - destruct (IH1 Hx) as [Hy Hr1]. destruct (IH2 Hy) as [Hz Hr2]. split; [exact Hz|lia]. }
  destruct (Hdec v v Hc Hvl). lia.
Qed.

End ImportsFacts.

Import ImportsFacts.

(** C6 (counterexample).  A cycle reachable from the queried key does not
    make the expansion recurse indefinitely: here [a.js] imports itself, but
    the earlier import [x.js] is missing and the call raises the not-found
    [RuntimeError] once the recursion depth allows one nested call. *)
Lemma generate_vite_asset_cycle_raises :
  clos_trans string (edge self_import_manifest) "a.js" "a.js" /\
  forall fuel, generate_vite_asset (S fuel) (cfg_with false false) self_import_manifest "a.js" None =
  Raise (RuntimeError "Cannot find %s in Vite manifest at %s" ["x.js"; "/app/static/manifest.json"]).
Proof.
  split.
  - apply t_step. unfold edge. simpl. right. left. reflexivity.
  - intros [|fuel]; reflexivity.
Qed.

(** C6 (amended).  If no cycle is reachable from the queried key, the call
    returns or raises within a recursion depth of the manifest's size.  If
    every key reachable from it is in the manifest with a [file] and a cycle
    is reachable, the call never returns at any recursion depth. *)
Theorem generate_vite_asset_termination :
  forall cfg m k scripts_attrs,
  (acyclic_from m k ->
     generate_vite_asset (length m) cfg m k scripts_attrs <> OutOfFuel) /\
  (hot_reload cfg = false -> well_formed_from m k ->
     (exists v, reachable m k v /\ clos_trans string (edge m) v v) ->
     forall fuel, generate_vite_asset fuel cfg m k scripts_attrs = OutOfFuel).
Proof.
  intros cfg m k a. split.
  - intros Hac. apply bounded_returns. apply acyclic_bounded. exact Hac.
  - intros Hhot Hwf Hc fuel. apply (cycle_diverges fuel cfg m k); auto. apply rt_refl.
Qed.

Lemma generate_vite_asset_termination_witness :
  generate_vite_asset (length diamond_manifest) (cfg_with false false) diamond_manifest "main.js" None
    <> OutOfFuel /\
  forall fuel, generate_vite_asset fuel (cfg_with false false) loop_manifest "a.js" None = OutOfFuel.
Proof.
  split.
  - apply (proj1 (generate_vite_asset_termination (cfg_with false false) diamond_manifest "main.js" None)).
    apply (ranked_acyclic diamond_manifest "main.js" ["main.js"; "a.js"; "b.js"; "shared.js"] diamond_rank).
    + intros u w Hu Hw. unfold edge, imports_of in Hw.
      simpl in Hu.
      destruct Hu as [<-|[<-|[<-|[<-|[]]]]]; simpl in Hw;
        repeat (destruct Hw as [<-|Hw]; [split; [simpl; tauto|vm_compute; lia]|]); destruct Hw.
    + simpl. tauto.
  - apply (proj2 (generate_vite_asset_termination (cfg_with false false) loop_manifest "a.js" None)).
    + reflexivity.
    + intros v Hv.
      assert (Hin : In v ["a.js"]).
      { apply (reachable_within loop_manifest "a.js" ["a.js"] v); [|simpl; tauto|exact Hv].
        intros u w [<-|[]] Hw. unfold edge, imports_of in Hw. simpl in Hw. exact Hw. }
      destruct Hin as [<-|[]]. eexists; eexists; split; reflexivity.
    + exists "a.js". split; [apply rt_refl|apply t_step; unfold edge; simpl; tauto].
Defined.

(** ** C3: reading the manifest *)

(** The other paths of [parse_manifest]: hot reload reads no file and
    returns [{}]; an unparsable file raises the wrapping [RuntimeError]; a
    parsable one is returned as parsed. *)
Lemma parse_manifest_paths : forall json_loads cfg fs,
  (hot_reload cfg = true -> parse_manifest json_loads cfg fs = Ret (JObject [])) /\
  (forall content, hot_reload cfg = false -> fs (manifest_path cfg) = Some content ->
     json_loads content = None ->
     parse_manifest json_loads cfg fs =
     Raise (RuntimeError "Cannot read Vite manifest file at %s" [manifest_path cfg])) /\
  (forall content j, hot_reload cfg = false -> fs (manifest_path cfg) = Some content ->
     json_loads content = Some j -> parse_manifest json_loads cfg fs = Ret j).
Proof.
  intros json_loads cfg fs. unfold parse_manifest.
  split; [intros ->; reflexivity|].
  split; intros content; [|intros j]; intros Hhot Hfs Hj; rewrite Hhot, Hfs, Hj; reflexivity.
Qed.

(** C3 (the missing file).  With hot reload off and no file at
    [{static_dir}/manifest.json], [parse_manifest] raises the
    [FileNotFoundError] of [open()], not a [RuntimeError]: the [open()] is
    outside the [try] block that wraps errors. *)
Theorem parse_manifest_missing_file : forall json_loads cfg fs,
  hot_reload cfg = false ->
  fs (manifest_path cfg) = None ->
  parse_manifest json_loads cfg fs = Raise (FileNotFoundError (manifest_path cfg)) /\
  forall msg args, parse_manifest json_loads cfg fs <> Raise (RuntimeError msg args).
Proof.
  intros json_loads cfg fs Hhot Hfs. unfold parse_manifest. rewrite Hhot, Hfs.
  split; [reflexivity|discriminate].
Qed.

Lemma parse_manifest_missing_file_witness :
  parse_manifest (fun _ => None) (cfg_with false false) (fun _ => None) =
  Raise (FileNotFoundError "/app/static/manifest.json") /\
  forall msg args,
    parse_manifest (fun _ => None) (cfg_with false false) (fun _ => None) <> Raise (RuntimeError msg args).
Proof.
  apply (parse_manifest_missing_file (fun _ => None) (cfg_with false false) (fun _ => None));
    reflexivity.
Defined.

(** ** C7 and C10: the HMR tags *)

(** C7.  With hot reload off both HMR tags are empty, whatever [is_react];
    the React refresh preamble is non-empty exactly when both [is_react] and
    [hot_reload] are set. *)
Theorem hmr_tags_flags : forall cfg,
  (hot_reload cfg = false ->
     generate_vite_ws_client cfg = "" /\ generate_vite_react_hmr cfg = "") /\
  (generate_vite_react_hmr cfg <> "" <-> is_react cfg = true /\ hot_reload cfg = true).
Proof.
  intros cfg. unfold generate_vite_ws_client, generate_vite_react_hmr.
  destruct (hot_reload cfg), (is_react cfg); simpl;
    (split; [intros H; try discriminate H; split; reflexivity|]);
    split; try (intros [H1 H2]; discriminate); try discriminate;
    intros H; (exfalso; apply H; reflexivity) || (split; reflexivity).
Qed.

Lemma hmr_tags_flags_witness :
  generate_vite_ws_client (cfg_with false true) = "" /\ generate_vite_react_hmr (cfg_with false true) = "".
Proof. apply (proj1 (hmr_tags_flags (cfg_with false true))). reflexivity. Defined.

(** C10.  [hmr_client] joins the React refresh tag and the dev-client tag
    with one newline; with hot reload off it is the one-character string
    ["\n"]. *)
Theorem hmr_client_newline : forall cfg,
  hmr_client cfg = generate_vite_react_hmr cfg ++ nl ++ generate_vite_ws_client cfg /\
  (hot_reload cfg = false -> hmr_client cfg = String (ascii_of_nat 10) EmptyString).
Proof.
  intros cfg. split; [reflexivity|].
  intros H. unfold hmr_client, generate_vite_react_hmr, generate_vite_ws_client.
  rewrite H, andb_false_r. reflexivity.
Qed.

Lemma hmr_client_newline_witness :
  hmr_client (cfg_with false true) = String (ascii_of_nat 10) EmptyString.
Proof. apply (proj2 (hmr_client_newline (cfg_with false true))). reflexivity. Defined.

(** ** C8 and C9: the template configuration *)

Module TemplateConfigFacts.

Import TemplateConfig.

(** C8.  Constructing a [ViteTemplateConfig] with the engine class and no
    directory (or an empty one) raises [ImproperlyConfiguredException];
    with an engine instance, or with the class and a non-empty directory,
    it returns. *)
Theorem make_config_directory_check :
  (forall dir cb, truthy dir = false ->
     make_config EngineClass dir cb =
     Raise (ImproperlyConfiguredException
              "directory is a required kwarg when passing a template engine class")) /\
  (forall e dir cb, exists c, make_config (EngineInstance e) dir cb = Ret c) /\
  (forall d cb, truthy (Some d) = true -> exists c, make_config EngineClass (Some d) cb = Ret c).
Proof.
  split; [|split].
  - intros dir cb H. unfold make_config. simpl. rewrite H. reflexivity.
  - intros e dir cb. eexists. reflexivity.
  - intros d cb H. unfold make_config. rewrite H. eexists. reflexivity.
Qed.

Lemma make_config_directory_check_witness :
  make_config EngineClass None false =
  Raise (ImproperlyConfiguredException "directory is a required kwarg when passing a template engine class")
  /\ exists c, make_config EngineClass (Some (PStr "templates")) true = Ret c.
Proof.
  split.
  - apply (proj1 make_config_directory_check). reflexivity.
  - apply (proj2 (proj2 make_config_directory_check)). reflexivity.
Defined.

Lemma engine_instance_cached : forall c e w,
  engine_instance_cache c = Some e -> engine_instance c w = (e, c, w).
Proof. intros c e w H. unfold engine_instance. rewrite H. reflexivity. Qed.

Lemma access_n_cached : forall n c e w,
  engine_instance_cache c = Some e -> access_n n c w = (repeat e n, c, w).
Proof.
  induction n as [|n IH]; intros c e w H; [reflexivity|].
  simpl. rewrite (engine_instance_cached c e w H), (IH c e w H). reflexivity.
Qed.

(** C9.  The first read of [engine_instance] on a fresh object runs
    [to_engine] once: a new engine is constructed from the directory when a
    class was given (the given instance is used otherwise), the callback, if
    any, is called once with it, and it is cached; every later read returns
    the same engine and changes neither the object nor the world, so [n + 1]
    reads construct at most one engine and call the callback at most
    once. *)
Theorem engine_instance_memoized : forall c w,
  engine_instance_cache c = None ->
  exists e c1 w1,
    to_engine c w = (e, w1) /\
    e = match engine c with EngineClass => next_obj w | EngineInstance i => i end /\
    events w1 = (events w
                 ++ (if isclass (engine c) then [Constructed (next_obj w) (directory c)] else [])
                 ++ (if engine_callback c then [CallbackCalled e] else []))%list /\
    engine_instance_cache c1 = Some e /\
    forall n, access_n (S n) c w = (repeat e (S n), c1, w1).
Proof.
  intros [eng dir cb cache] w H. simpl in H. subst cache.
  destruct (to_engine {| engine := eng; directory := dir; engine_callback := cb;
                         engine_instance_cache := None |} w) as [e w1] eqn:Ht.
  exists e, {| engine := eng; directory := dir; engine_callback := cb; engine_instance_cache := Some e |}, w1.
  split; [reflexivity|].
  assert (He : e = match eng with EngineClass => next_obj w | EngineInstance i => i end /\
               events w1 = (events w
                 ++ (if isclass eng then [Constructed (next_obj w) dir] else [])
                 ++ (if cb then [CallbackCalled e] else []))%list).
  { unfold to_engine in Ht. simpl in Ht.
    destruct eng, cb; injection Ht as <- <-; simpl;
      rewrite ?app_nil_r, <- ?app_assoc; split; reflexivity. }
  destruct He as [He Hev].
  split; [exact He|]. split; [exact Hev|]. split; [reflexivity|].
  intros n. cbn [access_n engine_instance engine_instance_cache]. rewrite Ht.
  rewrite access_n_cached with (e := e); reflexivity.
Qed.

Lemma engine_instance_memoized_witness :
  exists e c1 w1,
    to_engine {| engine := EngineClass; directory := Some (PStr "templates"); engine_callback := true;
                 engine_instance_cache := None |} {| next_obj := 7; events := [] |} = (e, w1) /\
    e = 7 /\
    events w1 = ([] ++ [Constructed 7 (Some (PStr "templates"))] ++ [CallbackCalled e])%list /\
    engine_instance_cache c1 = Some e /\
    forall n, access_n (S n) {| engine := EngineClass; directory := Some (PStr "templates");
                                engine_callback := true; engine_instance_cache := None |}
                         {| next_obj := 7; events := [] |} = (repeat e (S n), c1, w1).
Proof.
  apply (engine_instance_memoized
           {| engine := EngineClass; directory := Some (PStr "templates"); engine_callback := true;
              engine_instance_cache := None |} {| next_obj := 7; events := [] |}).
  reflexivity.
Defined.

End TemplateConfigFacts.

(** ** Further properties of the tag generator *)

Module GenerateFacts.


Lemma map_outcome_app_raise : forall f pre x post ex,
  Forall (fun y => exists t, f y = Ret t) pre -> f x = Raise ex ->
  map_outcome f (pre ++ x :: post)%list = Raise ex.
Proof.
  intros f pre x post ex H Hx; induction H as [|y r [t Ht] _ IH]; simpl.
  - rewrite Hx. reflexivity.
  - rewrite Ht. simpl in IH. rewrite IH. reflexivity.
Qed.

(** Passing no attributes, an empty dict, or the default dict gives the
    same result, in both modes and at every depth. *)
Theorem generate_vite_asset_attrs_default : forall fuel cfg m path,
  generate_vite_asset fuel cfg m path (Some []) = generate_vite_asset fuel cfg m path None /\
  generate_vite_asset fuel cfg m path (Some default_attrs) = generate_vite_asset fuel cfg m path None.
Proof. intros [|fuel] cfg m path; split; reflexivity. Qed.

(** In manifest mode, an import missing from the manifest makes the whole
    call raise the not-found [RuntimeError] naming that import, not the
    requested path, once the imports before it have returned. *)
Theorem generate_vite_asset_missing_import :
  forall fuel cfg m path e pre i post scripts_attrs,
  hot_reload cfg = false ->
  lookup path m = Some e ->
  imports e = Some (pre ++ i :: post)%list ->
  lookup i m = None ->
  Forall (fun v => exists t, generate_vite_asset fuel cfg m v scripts_attrs = Ret t) pre ->
  generate_vite_asset (S fuel) cfg m path scripts_attrs =
  Raise (RuntimeError "Cannot find %s in Vite manifest at %s" [i; manifest_path cfg]).
Proof.
  intros fuel cfg m path e pre i post a Hhot Hl Hi Hmiss Hpre.
  simpl. rewrite Hhot, Hl, Hi.
  erewrite map_outcome_app_raise; [reflexivity| |].
  - eapply Forall_impl; [|exact Hpre]. intros v [t Ht]. exists t.
    rewrite generate_vite_asset_effective. exact Ht.
  - destruct fuel; simpl; rewrite Hhot, Hmiss; reflexivity.
Qed.

Lemma generate_vite_asset_missing_import_witness :
  generate_vite_asset 1 (cfg_with false false) missing_import_manifest "main.js" None =
  Raise (RuntimeError "Cannot find %s in Vite manifest at %s" ["missing.js"; "/app/static/manifest.json"]).
Proof.
  apply (generate_vite_asset_missing_import 0 (cfg_with false false) missing_import_manifest "main.js"
           (entry "assets/main.js" None (Some ["shared.js"; "missing.js"])) ["shared.js"] "missing.js" []
           None); try reflexivity.
  constructor; [eexists; reflexivity|constructor].
Defined.



End GenerateFacts.

(** ** The loader singleton *)

Module LoaderFacts.

(** Once a construction has returned an instance, every later construction
    returns that same instance and leaves the class state unchanged,
    whatever the configuration and the file system: the manifest is read
    once. *)
Theorem loader_new_singleton : forall json_loads cfg fs fresh st i st',
  ViteAssetLoader_new json_loads cfg fs fresh st = (Ret i, st') ->
  cls_instance st' = Some i /\
  forall json_loads' cfg' fs' fresh',
    ViteAssetLoader_new json_loads' cfg' fs' fresh' st' = (Ret i, st').
Proof.
  intros json_loads cfg fs fresh [[j|] man] i st' H; unfold ViteAssetLoader_new in *; simpl in *.
  - injection H as <- <-. split; reflexivity.
  - destruct (parse_manifest json_loads cfg fs); try discriminate.
    injection H as <- <-. split; reflexivity.
Qed.

Lemma loader_new_singleton_witness :
  cls_instance {| cls_instance := Some 1; cls_manifest := JObject [] |} = Some 1 /\
  forall json_loads' cfg' fs' fresh',
    ViteAssetLoader_new json_loads' cfg' fs' fresh' {| cls_instance := Some 1; cls_manifest := JObject [] |} =
    (Ret 1, {| cls_instance := Some 1; cls_manifest := JObject [] |}).
Proof.
  apply (loader_new_singleton (fun _ => None) (cfg_with true false) (fun _ => None) 1
           {| cls_instance := None; cls_manifest := JObject [] |}).
  reflexivity.
Defined.

(** A construction whose manifest read raises re-raises that exception and
    leaves the class state without an instance, so the next construction
    reads the manifest again and succeeds once the file parses. *)
Theorem loader_new_failure_retries : forall json_loads cfg fs fresh st ex,
  cls_instance st = None ->
  parse_manifest json_loads cfg fs = Raise ex ->
  ViteAssetLoader_new json_loads cfg fs fresh st = (Raise ex, st) /\
  forall fs' fresh' j,
    parse_manifest json_loads cfg fs' = Ret j ->
    ViteAssetLoader_new json_loads cfg fs' fresh' st =
    (Ret fresh', {| cls_instance := Some fresh'; cls_manifest := j |}).
Proof.
  intros json_loads cfg fs fresh st ex Hi Hp. unfold ViteAssetLoader_new. rewrite Hi, Hp.
  split; [reflexivity|]. intros fs' fresh' j Hj. rewrite Hj. reflexivity.
Qed.

Lemma loader_new_failure_retries_witness :
  ViteAssetLoader_new (fun _ => Some (JObject [])) (cfg_with false false) (fun _ => None) 1
    {| cls_instance := None; cls_manifest := JObject [] |} =
  (Raise (FileNotFoundError "/app/static/manifest.json"), {| cls_instance := None; cls_manifest := JObject [] |})
  /\
  ViteAssetLoader_new (fun _ => Some (JObject [])) (cfg_with false false) (fun _ => Some "{}") 2
    {| cls_instance := None; cls_manifest := JObject [] |} =
  (Ret 2, {| cls_instance := Some 2; cls_manifest := JObject [] |}).
Proof.
  destruct (loader_new_failure_retries (fun _ => Some (JObject [])) (cfg_with false false) (fun _ => None) 1
              {| cls_instance := None; cls_manifest := JObject [] |}
              (FileNotFoundError "/app/static/manifest.json")) as [H1 H2]; try reflexivity.
  split; [exact H1|]. apply H2. reflexivity.
Defined.

(** With hot reload on, the first construction never raises, reads no
    file, and stores the empty manifest. *)
Theorem loader_new_hot_reload : forall json_loads cfg fs fresh st,
  hot_reload cfg = true ->
  cls_instance st = None ->
  ViteAssetLoader_new json_loads cfg fs fresh st =
  (Ret fresh, {| cls_instance := Some fresh; cls_manifest := JObject [] |}).
Proof.
  intros json_loads cfg fs fresh st Hhot Hi. unfold ViteAssetLoader_new, parse_manifest.
  rewrite Hi, Hhot. reflexivity.
Qed.

Lemma loader_new_hot_reload_witness :
  ViteAssetLoader_new (fun _ => None) (cfg_with true false) (fun _ => None) 5
    {| cls_instance := None; cls_manifest := JNull |} =
  (Ret 5, {| cls_instance := Some 5; cls_manifest := JObject [] |}).
Proof. apply loader_new_hot_reload; reflexivity. Defined.

End LoaderFacts.

(** ** The module-level configuration *)

Module SettingsFacts.

Import Settings.

Definition field_names : list string :=
  ["hot_reload"; "is_react"; "static_url"; "static_dir"; "host"; "protocol"; "port";
   "run_command"; "build_command"].

Lemma lookup_val_skip : forall f k v d,
  f <> k -> lookup_val f ((k, v) :: d) = lookup_val f d.
Proof.
  intros f k v d H. simpl. destruct (String.eqb_spec f k); [contradiction|reflexivity].
Qed.

(** The module-level [vite_config] takes [hot_reload] from [DEBUG] and
    [static_dir] from [STATIC_DIR], but the [assets_path] key it is given
    for [STATIC_URL] is not a field and is dropped: [static_url] is always
    the default ["/static/"], and every other field has its default. *)
Theorem vite_config_ignores_static_url : forall debug static_url_setting static_dir_setting,
  vite_config_of debug static_url_setting static_dir_setting =
  Some {| hot_reload := debug; is_react := false; static_url := "/static/";
          static_dir := static_dir_setting; host := "localhost"; protocol := "http"; port := 3000 |}.
Proof. intros debug su sd. reflexivity. Qed.

(** A key that is not a field of [ViteConfig] never changes the outcome
    of [parse_obj]. *)
Theorem parse_obj_ignores_extra : forall k v d,
  ~ In k field_names -> parse_obj ((k, v) :: d) = parse_obj d.
Proof.
  intros k v d Hk.
  assert (Hne : forall f, In f field_names -> f <> k) by (intros f Hf ->; contradiction).
  unfold parse_obj.
  rewrite !lookup_val_skip by (apply Hne; simpl; tauto).
  reflexivity.
Qed.

Lemma parse_obj_ignores_extra_witness :
  parse_obj [("assets_path", VStr "/assets/"); ("static_dir", VPath "/app/static")] =
  parse_obj [("static_dir", VPath "/app/static")].
Proof.
  apply parse_obj_ignores_extra. simpl. intuition discriminate.
Defined.



End SettingsFacts.

(** ** The dev-server runner *)

Module RunnerFacts.

Import Runner.


Lemma strip_newlines_app : forall a b,
  strip_newlines (a ++ b) = strip_newlines a ++ strip_newlines b.
Proof.
  induction a as [|c a IH]; intros b; [reflexivity|].
  simpl. destruct (Ascii.eqb c (ascii_of_nat 10)); rewrite IH; reflexivity.
Qed.

Lemma strip_newlines_clean : forall s,
  find_index (Ascii.eqb (ascii_of_nat 10)) (strip_newlines s) = None.
Proof.
  induction s as [|c s IH]; [reflexivity|].
  simpl. destruct (Ascii.eqb c (ascii_of_nat 10)) eqn:E; [exact IH|].
  cbn [find_index]. destruct (Ascii.eqb (ascii_of_nat 10) c) eqn:E2.
  - apply Ascii.eqb_eq in E2. subst c. discriminate.
  - rewrite IH. reflexivity.
Qed.



(** The logged output carries no newline, and its text does not depend on
    how the child's output was cut into chunks: the messages concatenate to
    the whole output with its newlines removed. *)
Theorem run_vite_messages : forall chunks stop,
  Forall (fun m => find_index (Ascii.eqb (ascii_of_nat 10)) m = None)
         (messages (fst (run_vite chunks stop))) /\
  String.concat "" (messages (fst (run_vite chunks stop))) = strip_newlines (String.concat "" chunks).
Proof.
  intros chunks stop. unfold run_vite, _run_vite, messages. simpl.
  rewrite flat_map_app. simpl. rewrite app_nil_r.
  split.
  - induction chunks as [|t r IH]; simpl; constructor; [apply strip_newlines_clean|exact IH].
  - induction chunks as [|t [|t' r] IH]; [reflexivity|reflexivity|].
    simpl in *. rewrite IH. rewrite strip_newlines_app. reflexivity.
Qed.

End RunnerFacts.

(** ** Further properties of the template configuration *)

Module TemplateConfigMore.

Import TemplateConfig.

(** Unlike [engine_instance], [to_engine] is not cached: two calls on a
    configuration holding the engine class construct two distinct engines
    and run the callback, if any, after each. *)
Theorem to_engine_not_memoized : forall c w e1 w1 e2 w2,
  engine c = EngineClass ->
  to_engine c w = (e1, w1) -> to_engine c w1 = (e2, w2) ->
  e1 <> e2 /\
  events w2 = (events w ++ [Constructed e1 (directory c)]
               ++ (if engine_callback c then [CallbackCalled e1] else [])
               ++ [Constructed e2 (directory c)]
               ++ (if engine_callback c then [CallbackCalled e2] else []))%list.
Proof.
  intros [eng dir cb cache] w e1 w1 e2 w2 He H1 H2. simpl in He. subst eng.
  unfold to_engine in H1, H2. simpl in *.
  destruct cb; injection H1 as <- <-; injection H2 as <- <-; simpl;
    (split; [lia|]); rewrite <- !app_assoc; reflexivity.
Qed.

Lemma to_engine_not_memoized_witness :
  1 <> 2 /\
  events {| next_obj := 3; events := [Constructed 1 (Some (PStr "t")); CallbackCalled 1;
                                       Constructed 2 (Some (PStr "t")); CallbackCalled 2] |} =
  ([] ++ [Constructed 1 (Some (PStr "t"))] ++ [CallbackCalled 1] ++ [Constructed 2 (Some (PStr "t"))]
      ++ [CallbackCalled 2])%list.
Proof.
  apply (to_engine_not_memoized
           {| engine := EngineClass; directory := Some (PStr "t"); engine_callback := true;
              engine_instance_cache := None |}
           {| next_obj := 1; events := [] |}
           1 {| next_obj := 2; events := [Constructed 1 (Some (PStr "t")); CallbackCalled 1] |}
           2 {| next_obj := 3; events := [Constructed 1 (Some (PStr "t")); CallbackCalled 1;
                                           Constructed 2 (Some (PStr "t")); CallbackCalled 2] |});
    reflexivity.
Defined.

(** The directory check of [__post_init__] is Python truthiness, not a
    check that a directory is named: a [Path] (even [Path("")]) and any
    non-empty list (even of empty strings) are accepted with the engine
    class, the empty string is rejected. *)
Theorem make_config_truthiness :
  (forall p cb, exists c, make_config EngineClass (Some (PPath p)) cb = Ret c) /\
  (forall x l cb, exists c, make_config EngineClass (Some (PList (x :: l))) cb = Ret c) /\
  (forall cb, make_config EngineClass (Some (PStr "")) cb =
              Raise (ImproperlyConfiguredException
                       "directory is a required kwarg when passing a template engine class")).
Proof. split; [|split]; intros; (eexists; reflexivity) || reflexivity. Qed.

End TemplateConfigMore.
